(** * MCsend.py: the multicast announcer of XPMP2's documentation folder

    A shallow embedding of [docs/MCsend.py] and of the part of the Python
    runtime and of the socket layer the script talks to, followed by the
    properties of one run of the script.

    The script is a straight line of three calls on the [socket] module:
    create a datagram socket, set its multicast TTL, send one payload.
    Every call may fail on the platform; a failure is a Python exception,
    the script has no handler, so the interpreter prints a traceback and
    exits with status 1.

    The model has two layers. [module_body] and [run_script] are lines 14
    to 19 and the exit of the process, once line 3 has bound the standard
    [socket] module and with the warning filters as they are by default,
    under which a resource warning is not shown. [python3] is the whole
    invocation: it adds the import of line 3, which may fail, and the
    warning about the socket the script never closes, which an
    interpreter run in development mode or with other filters shows. *)

From Stdlib Require Import ZArith List String Ascii Lia.
From Stdlib.Strings Require Import Byte.
From stdpp Require Import base gmap list strings.
Import ListNotations.
Open Scope Z_scope.

(** ** Constants of the [socket] module used by the script *)

Inductive address_family := AF_INET | AF_INET6 | AF_UNIX.
Inductive socket_kind := SOCK_STREAM | SOCK_DGRAM | SOCK_RAW.
Inductive protocol := IPPROTO_IP | IPPROTO_TCP | IPPROTO_UDP.
Inductive option_name := IP_TTL | IP_MULTICAST_TTL | IP_MULTICAST_LOOP.

(** ** Exceptions the socket calls raise *)

Inductive exn :=
| OSError (errno : Z) (strerror : string)
| OverflowError (msg : string)
| ImportError (msg : string).

Definition EBADF : exn := OSError 9 "Bad file descriptor".
Definition EINVAL : exn := OSError 22 "Invalid argument".
Definition ENOPROTOOPT : exn := OSError 92 "Protocol not available".

(** ** The socket layer *)

(** What the kernel keeps for one socket: how it was created and the two
    hop limits of the IP level, the one for unicast and the one for
    multicast destinations. *)
Record socket_state := SocketState {
  so_family : address_family;
  so_kind : socket_kind;
  so_proto : protocol;
  so_ttl : Z;
  so_mcast_ttl : Z
}.

(** A packet handed to the network. *)
Record datagram := Datagram {
  dg_family : address_family;
  dg_proto : protocol;
  dg_dst : Z;
  dg_dport : Z;
  dg_ttl : Z;
  dg_payload : list byte
}.

Inductive syscall :=
| sys_socket (domain : address_family) (type : socket_kind) (proto : protocol)
| sys_setsockopt (fd : Z) (level : protocol) (optname : option_name) (optval : Z)
| sys_sendto (fd : Z) (buf : list byte) (dst : Z) (dport : Z).

Inductive sysret :=
| Ret (v : Z)
| Err (e : exn).

(** One call as the history keeps it: the sockets as they were when the
    call was made, the call, and what it returned. *)
Record event := Event {
  ev_sockets : gmap Z socket_state;
  ev_call : syscall;
  ev_ret : sysret
}.

(** The kernel side of the process: its open sockets by descriptor, the
    packets it has put on the network, the history of its calls, oldest
    first, and the unicast hop limit the host gives a new socket (a
    setting of the host: 64 on most, 128 on some). *)
Record kernel := Kernel {
  k_sockets : gmap Z socket_state;
  k_wire : list datagram;
  k_log : list event;
  k_default_ttl : Z
}.

(** A new socket has the host's unicast hop limit and the multicast hop
    limit 1. *)
Definition new_socket (default_ttl : Z) (domain : address_family)
    (type : socket_kind) (proto : protocol) : socket_state :=
  SocketState domain type proto default_ttl 1.

(** [IP_TTL] and [IP_MULTICAST_TTL] exist at level [IPPROTO_IP] only; the
    multicast hop limit accepts 0..255, and -1 for the default of 1; the
    unicast one accepts 1..255, and -1 for the host's default. *)
Definition apply_sockopt (default_ttl : Z) (level : protocol)
    (optname : option_name) (optval : Z) (s : socket_state)
    : socket_state + exn :=
  match level, optname with
  | IPPROTO_IP, IP_MULTICAST_TTL =>
      if (optval =? -1) then
        inl (SocketState (so_family s) (so_kind s) (so_proto s) (so_ttl s) 1)
      else if (optval <? 0) || (255 <? optval) then inr EINVAL
      else inl (SocketState (so_family s) (so_kind s) (so_proto s)
                            (so_ttl s) optval)
  | IPPROTO_IP, IP_TTL =>
      if (optval =? -1) then
        inl (SocketState (so_family s) (so_kind s) (so_proto s) default_ttl
                         (so_mcast_ttl s))
      else if (optval <? 1) || (255 <? optval) then inr EINVAL
      else inl (SocketState (so_family s) (so_kind s) (so_proto s) optval
                            (so_mcast_ttl s))
  | IPPROTO_IP, IP_MULTICAST_LOOP => inl s
  | _, _ => inr ENOPROTOOPT
  end.

(** IPv4 addresses are 32-bit numbers, first octet in the top byte. The
    multicast range 224.0.0.0/4 has the top four bits 1110. *)
Definition ipv4 (a b c d : Z) : Z :=
  Z.lor (Z.lor (Z.shiftl a 24) (Z.shiftl b 16)) (Z.lor (Z.shiftl c 8) d).

Definition is_multicast (addr : Z) : bool := Z.shiftr addr 28 =? 14.

Definition hop_limit (s : socket_state) (dst : Z) : Z :=
  if is_multicast dst then so_mcast_ttl s else so_ttl s.

(** What a call does when the platform lets it through. *)
Definition kernel_step (k : kernel) (c : syscall) : (Z * kernel) + exn :=
  match c with
  | sys_socket domain type proto =>
      let fd := fresh (dom (k_sockets k)) in
      inl (fd, Kernel (<[fd := new_socket (k_default_ttl k) domain type
                                           proto]> (k_sockets k))
                      (k_wire k) (k_log k) (k_default_ttl k))
  | sys_setsockopt fd level optname optval =>
      match k_sockets k !! fd with
      | None => inr EBADF
      | Some s =>
          match apply_sockopt (k_default_ttl k) level optname optval s with
          | inl s' => inl (0, Kernel (<[fd := s']> (k_sockets k))
                                     (k_wire k) (k_log k) (k_default_ttl k))
          | inr e => inr e
          end
      end
  | sys_sendto fd buf dst dport =>
      match k_sockets k !! fd with
      | None => inr EBADF
      | Some s =>
          let dg := Datagram (so_family s) (so_proto s) dst dport
                             (hop_limit s dst) buf in
          inl (Z.of_nat (length buf),
               Kernel (k_sockets k) (k_wire k ++ [dg]) (k_log k)
                      (k_default_ttl k))
      end
  end.

(** Enter a call made in state [k0] into the history of [k]. *)
Definition log_call (k0 : kernel) (c : syscall) (r : sysret) (k : kernel)
    : kernel :=
  Kernel (k_sockets k) (k_wire k) (k_log k ++ [Event (k_sockets k0) c r])
         (k_default_ttl k).

(** The platform the script runs on. It may refuse any call, for a reason
    of its own that depends on the kernel's state and on the call, and it
    resolves the host names that are not address literals. *)
Record platform := Platform {
  refuses : kernel -> syscall -> option exn;
  getaddrinfo : string -> Z + exn
}.

(** ** The process *)

(** What the interpreter writes to standard error: the traceback of an
    exception nobody caught, with the line of the script it came from,
    and the warning about a socket that was never closed, with its
    descriptor. *)
Inductive diagnostic :=
| Traceback (tb_lineno : nat) (tb_exn : exn)
| ResourceWarning (fd : Z).

Record process := Process {
  argv : list string;
  environ : gmap string string;
  stdout : list byte;
  stderr : list diagnostic;
  files : gmap string (list byte);
  lineno : nat
}.

Record world := World {
  w_proc : process;
  w_kern : kernel
}.

Definition set_lineno (n : nat) (w : world) : world :=
  let p := w_proc w in
  World (Process (argv p) (environ p) (stdout p) (stderr p) (files p) n)
        (w_kern w).

Definition set_argv (a : list string) (w : world) : world :=
  let p := w_proc w in
  World (Process a (environ p) (stdout p) (stderr p) (files p) (lineno p))
        (w_kern w).

Definition set_environ (env : gmap string string) (w : world) : world :=
  let p := w_proc w in
  World (Process (argv p) env (stdout p) (stderr p) (files p) (lineno p))
        (w_kern w).

(** ** Statements: state passing with exceptions *)

Inductive result (A : Type) :=
| Returned (a : A)
| Raised (e : exn).
Arguments Returned {A} a.
Arguments Raised {A} e.

Definition Py (A : Type) : Type := world -> result A * world.

Definition ret {A} (a : A) : Py A := fun w => (Returned a, w).

Definition raise {A} (e : exn) : Py A := fun w => (Raised e, w).

Definition bind {A B} (m : Py A) (f : A -> Py B) : Py B :=
  fun w =>
    match m w with
    | (Returned a, w') => f a w'
    | (Raised e, w') => (Raised e, w')
    end.

Notation "x <- m ;; k" := (bind m (fun x => k))
  (at level 100, m at next level, right associativity).
Notation "m ;; k" := (bind m (fun _ => k))
  (at level 100, right associativity).

(** The statement that starts on line [n] of the script. *)
Definition at_line {A} (n : nat) (m : Py A) : Py A :=
  fun w => m (set_lineno n w).

(** ** Parsing a dotted-quad address literal *)

Definition digit_of (ch : ascii) : option Z :=
  let n := Z.of_N (N_of_ascii ch) in
  if (48 <=? n) && (n <=? 57) then Some (n - 48) else None.

(** One pass over the text: [octets] are the finished octets, [cur] the
    one being read, [saw_digit] whether it has a digit yet. An octet has
    no leading zero and is at most 255; there are exactly four. *)
Fixpoint inet_pton4 (src : string) (octets : list Z) (cur : Z)
    (saw_digit : bool) : option Z :=
  match src with
  | EmptyString =>
      match octets with
      | [a; b; c] => if saw_digit then Some (ipv4 a b c cur) else None
      | _ => None
      end
  | String ch rest =>
      match digit_of ch with
      | Some d =>
          let new := cur * 10 + d in
          if saw_digit && (cur =? 0) then None
          else if 255 <? new then None
          else if negb saw_digit && (3 <? length octets)%nat then None
          else inet_pton4 rest octets new true
      | None =>
          if Ascii.eqb ch "."%char && saw_digit then
            if (length octets =? 3)%nat then None
            else inet_pton4 rest (octets ++ [cur]) 0 false
          else None
      end
  end.

Section Script.

Variable plat : platform.

(** ** The three methods of the [socket] module the script calls *)

(** Make a call: the platform may refuse it, otherwise the kernel
    executes it. Either way the call enters the history. *)
Definition invoke (c : syscall) : Py Z :=
  fun w =>
    let k := w_kern w in
    match refuses plat k c with
    | Some e => (Raised e, World (w_proc w) (log_call k c (Err e) k))
    | None =>
        match kernel_step k c with
        | inl (v, k') =>
            (Returned v, World (w_proc w) (log_call k c (Ret v) k'))
        | inr e => (Raised e, World (w_proc w) (log_call k c (Err e) k))
        end
    end.

(** [socket.socket(family, type, proto)]: the new socket object, which
    is its descriptor here. *)
Definition socket (family : address_family) (type : socket_kind)
    (proto : protocol) : Py Z :=
  invoke (sys_socket family type proto).

(** [sock.setsockopt(level, optname, value)] with an integer value. *)
Definition setsockopt (sock : Z) (level : protocol)
    (optname : option_name) (value : Z) : Py unit :=
  invoke (sys_setsockopt sock level optname value) ;; ret tt.

(** The host of an [AF_INET] address: a dotted-quad literal is taken as
    it is, any other name goes to the resolver. *)
Definition setipaddr (host : string) : Py Z :=
  match inet_pton4 host [] 0 false with
  | Some a => ret a
  | None =>
      match getaddrinfo plat host with
      | inl a => ret a
      | inr e => raise e
      end
  end.

(** [sock.sendto(data, (host, port))]: the number of bytes sent. *)
Definition sendto (sock : Z) (data : list byte) (address : string * Z)
    : Py Z :=
  let '(host, port) := address in
  a <- setipaddr host ;;
  if (port <? 0) || (65535 <? port) then
    raise (OverflowError "sendto(): port must be 0-65535.")
  else invoke (sys_sendto sock data a port).

(** ** The script *)

Definition MCAST_GRP : string := "239.255.1.1".
Definition MCAST_PORT : Z := 49788.

Definition MULTICAST_TTL : Z := 2.

(** The bytes literal [b"robot"]. *)
Definition robot : list byte := [x72; x6f; x62; x6f; x74].

(** Lines 14, 15 and 19 of the script. *)
Definition module_body : Py unit :=
  sock <- at_line 14 (socket AF_INET SOCK_DGRAM IPPROTO_UDP) ;;
  at_line 15 (setsockopt sock IPPROTO_IP IP_MULTICAST_TTL MULTICAST_TTL) ;;
  at_line 19 (sendto sock robot (MCAST_GRP, MCAST_PORT)) ;;
  ret tt.

(** ** The interpreter around the script *)

(** An exception nobody caught: its traceback goes to standard error. *)
Definition print_traceback (e : exn) (w : world) : world :=
  let p := w_proc w in
  World (Process (argv p) (environ p) (stdout p)
                 (stderr p ++ [Traceback (lineno p) e]) (files p)
                 (lineno p))
        (w_kern w).

(** The end of the process releases every descriptor it still holds. *)
Definition release_all (w : world) : world :=
  let k := w_kern w in
  World (w_proc w) (Kernel ∅ (k_wire k) (k_log k) (k_default_ttl k)).

(** Run lines 14 to 19 as the main module and end the process: exit
    status and final world. Line 3 has bound the standard module, and the
    warning filters are the default ones, so the socket left open is
    released without a word. *)
Definition run_script (w : world) : Z * world :=
  match module_body w with
  | (Returned _, w') => (0, release_all w')
  | (Raised e, w') => (1, release_all (print_traceback e w'))
  end.

(** The run is successful when the module body runs to its end. *)
Definition successful (w : world) : Prop :=
  fst (module_body w) = Returned tt.

End Script.

(** ** The whole invocation *)

(** What the interpreter adds around lines 14 to 19. Both parts are the
    interpreter's own and may depend on the process it runs in, that is
    on its environment, its files and the way it was started.

    [import_socket] is line 3. It returns when the name [socket] is bound
    to the module of the standard library and raises when the import
    fails; either way it leaves the process as the import system leaves
    it, which reads the module path and the files on it and may keep
    compiled files or write messages of its own. (A run in which some
    other module loads under that name is not a run of the calls modelled
    here and has no place in it.)

    [resource_warnings] tells whether the warning filters, set when the
    interpreter starts, let a [ResourceWarning] through; by default they
    do not. *)
Record interpreter := Interpreter {
  import_socket : process -> result unit * process;
  resource_warnings : process -> bool
}.

(** The world when line 3 is over. *)
Definition after_import (interp : interpreter) (w : world) : world :=
  World (snd (import_socket interp (w_proc w))) (w_kern w).

(** Line 3 has bound the module. *)
Definition imported (interp : interpreter) (w : world) : Prop :=
  fst (import_socket interp (w_proc w)) = Returned tt.

(** The sockets the script created and left open: the descriptors open
    at the end, in [w'], that were not at the start, in [w]. *)
Definition unclosed (w w' : world) : list Z :=
  elements (dom (k_sockets (w_kern w')) ∖ dom (k_sockets (w_kern w))).

(** One warning on standard error for each of these descriptors. *)
Definition warn_unclosed (fds : list Z) (w : world) : world :=
  let p := w_proc w in
  World (Process (argv p) (environ p) (stdout p)
                 (stderr p ++ map ResourceWarning fds) (files p) (lineno p))
        (w_kern w).

(** The invocation from line 3 to the end of the process. A failing
    import is an exception of line 3 like any other. When the module body
    is over, with or without a traceback, the interpreter finalises the
    socket object the script left behind, which warns if warnings are
    shown, and the process ends. *)
Definition python3 (interp : interpreter) (plat : platform) (w : world)
    : Z * world :=
  match fst (import_socket interp (w_proc w)) with
  | Raised e =>
      (1, release_all (print_traceback e (set_lineno 3 (after_import interp w))))
  | Returned _ =>
      match module_body plat (after_import interp w) with
      | (r, w') =>
          let w1 :=
            match r with
            | Returned _ => w'
            | Raised e => print_traceback e w'
            end in
          let w2 :=
            if resource_warnings interp (w_proc w)
            then warn_unclosed (unclosed (after_import interp w) w') w1
            else w1 in
          (match r with
           | Returned _ => 0
           | Raised _ => 1
           end,
           release_all w2)
      end
  end.

(** ** Concrete platforms and a concrete start *)

(** A platform that refuses nothing (the resolver is out of order: the
    script never needs it). *)
Definition obliging : platform :=
  Platform (fun _ _ => None)
           (fun _ => inr (OSError (-2) "Name or service not known")).

(** No socket of the internet family can be created. *)
Definition no_inet : platform :=
  Platform (fun _ c =>
              match c with
              | sys_socket AF_INET _ _ =>
                  Some (OSError 97 "Address family not supported by protocol")
              | _ => None
              end)
           (getaddrinfo obliging).

(** The multicast hop limit is not an option of this platform. *)
Definition no_multicast : platform :=
  Platform (fun _ c =>
              match c with
              | sys_setsockopt _ IPPROTO_IP IP_MULTICAST_TTL _ =>
                  Some ENOPROTOOPT
              | _ => None
              end)
           (getaddrinfo obliging).

(** There is no route for anything that is sent. *)
Definition no_route : platform :=
  Platform (fun _ c =>
              match c with
              | sys_sendto _ _ _ _ => Some (OSError 101 "Network is unreachable")
              | _ => None
              end)
           (getaddrinfo obliging).

(** A process that has just started, with the given arguments. *)
Definition fresh_process (args : list string) : world :=
  World (Process args ∅ [] [] ∅ 0%nat) (Kernel ∅ [] [] 64).

(** An interpreter with the module in place and the default filters. *)
Definition plain_interpreter : interpreter :=
  Interpreter (fun p => (Returned tt, p)) (fun _ => false).

(** An interpreter that shows resource warnings when the environment
    asks for the development mode, and that keeps a compiled file of the
    module it imports. *)
Definition dev_interpreter : interpreter :=
  Interpreter (fun p =>
                 (Returned tt,
                  Process (argv p) (environ p) (stdout p) (stderr p)
                          (<["__pycache__/socket.pyc" := [x00]]> (files p))
                          (lineno p)))
              (fun p => bool_decide (is_Some (environ p !! "PYTHONDEVMODE"))).

(** An interpreter that does not find the module when the environment
    sends it looking elsewhere. *)
Definition lost_interpreter : interpreter :=
  Interpreter (fun p =>
                 match environ p !! "PYTHONHOME" with
                 | Some _ =>
                     (Raised (ImportError "No module named 'socket'"), p)
                 | None => (Returned tt, p)
                 end)
              (fun _ => false).

(** A process started with the development mode asked for. *)
Definition dev_process : world :=
  World (Process ["MCsend.py"] {["PYTHONDEVMODE" := "1"]} [] [] ∅ 0%nat)
        (Kernel ∅ [] [] 64).

(** A second start: a process that has run for a while, with arguments,
    an environment, output written, a file, a socket open and a packet
    already sent. *)
Definition busy_process : world :=
  World (Process ["MCsend.py"; "--verbose"] {["HOME" := "/root"]}
                 [x68; x69] [] {["notes.txt" := [x61]]} 3%nat)
        (Kernel {[3 := new_socket 64 AF_INET SOCK_STREAM IPPROTO_TCP]}
                [Datagram AF_INET IPPROTO_UDP (ipv4 10 0 0 1) 53 64 [x00]]
                [] 64).

(** ** The states one run goes through *)

Definition group_address : Z := ipv4 239 255 1 1.

Definition socket_call : syscall := sys_socket AF_INET SOCK_DGRAM IPPROTO_UDP.

Definition setsockopt_call (fd : Z) : syscall :=
  sys_setsockopt fd IPPROTO_IP IP_MULTICAST_TTL 2.

Definition sendto_call (fd : Z) : syscall :=
  sys_sendto fd robot group_address 49788.

(** The descriptor a socket created in state [k] gets. *)
Definition sock_of (k : kernel) : Z := fresh (dom (k_sockets k)).

Definition created (k : kernel) : socket_state :=
  new_socket (k_default_ttl k) AF_INET SOCK_DGRAM IPPROTO_UDP.

Definition configured (k : kernel) : socket_state :=
  SocketState AF_INET SOCK_DGRAM IPPROTO_UDP (k_default_ttl k) 2.

Definition robot_datagram : datagram :=
  Datagram AF_INET IPPROTO_UDP group_address 49788 2 robot.

(** The kernel after the socket is there, after its hop limit is set, and
    after the payload is sent. *)
Definition after_socket (k : kernel) : kernel :=
  Kernel (<[sock_of k := created k]> (k_sockets k)) (k_wire k)
         (k_log k ++ [Event (k_sockets k) socket_call (Ret (sock_of k))])
         (k_default_ttl k).

Definition after_setsockopt (k : kernel) : kernel :=
  Kernel (<[sock_of k := configured k]> (k_sockets k)) (k_wire k)
         (k_log (after_socket k)
          ++ [Event (k_sockets (after_socket k)) (setsockopt_call (sock_of k))
                    (Ret 0)])
         (k_default_ttl k).

Definition after_sendto (k : kernel) : kernel :=
  Kernel (k_sockets (after_setsockopt k)) (k_wire k ++ [robot_datagram])
         (k_log (after_setsockopt k)
          ++ [Event (k_sockets (after_setsockopt k)) (sendto_call (sock_of k))
                    (Ret 5)])
         (k_default_ttl k).

(** The four ways a run of the module body can go: one per call that the
    platform refuses, and the run in which it refuses none. *)
Inductive run_of (plat : platform) (w : world) : result unit * world -> Prop :=
| socket_fails e :
    refuses plat (w_kern w) socket_call = Some e ->
    run_of plat w
      (Raised e,
       World (w_proc (set_lineno 14 w))
             (log_call (w_kern w) socket_call (Err e) (w_kern w)))
| setsockopt_fails e :
    refuses plat (w_kern w) socket_call = None ->
    refuses plat (after_socket (w_kern w))
            (setsockopt_call (sock_of (w_kern w))) = Some e ->
    run_of plat w
      (Raised e,
       World (w_proc (set_lineno 15 w))
             (log_call (after_socket (w_kern w))
                       (setsockopt_call (sock_of (w_kern w))) (Err e)
                       (after_socket (w_kern w))))
| sendto_fails e :
    refuses plat (w_kern w) socket_call = None ->
    refuses plat (after_socket (w_kern w))
            (setsockopt_call (sock_of (w_kern w))) = None ->
    refuses plat (after_setsockopt (w_kern w))
            (sendto_call (sock_of (w_kern w))) = Some e ->
    run_of plat w
      (Raised e,
       World (w_proc (set_lineno 19 w))
             (log_call (after_setsockopt (w_kern w))
                       (sendto_call (sock_of (w_kern w))) (Err e)
                       (after_setsockopt (w_kern w))))
| all_succeed :
    refuses plat (w_kern w) socket_call = None ->
    refuses plat (after_socket (w_kern w))
            (setsockopt_call (sock_of (w_kern w))) = None ->
    refuses plat (after_setsockopt (w_kern w))
            (sendto_call (sock_of (w_kern w))) = None ->
    run_of plat w
      (Returned tt,
       World (w_proc (set_lineno 19 w)) (after_sendto (w_kern w))).

(** ** What a run leaves behind *)

(** The run of the whole script adds the packets [dgs] to the network. *)
Definition emits (plat : platform) (w : world) (dgs : list datagram) : Prop :=
  k_wire (w_kern (snd (run_script plat w))) = k_wire (w_kern w) ++ dgs.

(** The run of the whole script adds the calls [evs] to the history. *)
Definition calls (plat : platform) (w : world) (evs : list event) : Prop :=
  k_log (w_kern (snd (run_script plat w))) = k_log (w_kern w) ++ evs.

Definition is_sendto (c : syscall) : bool :=
  match c with
  | sys_sendto _ _ _ _ => true
  | _ => false
  end.

(** The line of the script that makes the call. *)
Definition statement_line (c : syscall) : nat :=
  match c with
  | sys_socket _ _ _ => 14
  | sys_setsockopt _ _ _ _ => 15
  | sys_sendto _ _ _ _ => 19
  end.

(** The three events of a run in which every call succeeds. *)
Definition full_history (k : kernel) : list event :=
  [Event (k_sockets k) socket_call (Ret (sock_of k));
   Event (k_sockets (after_socket k)) (setsockopt_call (sock_of k)) (Ret 0);
   Event (k_sockets (after_setsockopt k)) (sendto_call (sock_of k)) (Ret 5)].

(** ** One invocation after another *)

(** The world after [n] invocations in a row, each one starting where the
    one before it ended. *)
Definition invocations (interp : interpreter) (plat : platform) (n : nat)
    (w : world) : world :=
  Nat.iter n (fun w' => snd (python3 interp plat w')) w.

(** * Properties *)

Lemma inet_pton4_MCAST_GRP :
  inet_pton4 MCAST_GRP [] 0 false = Some group_address.
Proof. reflexivity. Qed.

Example group_address_value : group_address = 0xEFFF0101.
Proof. reflexivity. Qed.

Example inet_pton4_three_octets : inet_pton4 "239.255.1" [] 0 false = None.
Proof. reflexivity. Qed.

Example inet_pton4_octet_too_large :
  inet_pton4 "239.256.1.1" [] 0 false = None.
Proof. reflexivity. Qed.

Example inet_pton4_leading_zero : inet_pton4 "239.255.01.1" [] 0 false = None.
Proof. reflexivity. Qed.

Example inet_pton4_host_name : inet_pton4 "localhost" [] 0 false = None.
Proof. reflexivity. Qed.

Example unicast_is_not_multicast : is_multicast (ipv4 10 0 0 1) = false.
Proof. reflexivity. Qed.

Example robot_is_ascii : robot = list_byte_of_string "robot".
Proof. reflexivity. Qed.

Lemma group_address_multicast : is_multicast group_address = true.
Proof. reflexivity. Qed.

(** *** One call at a time *)

Lemma invoke_refused (plat : platform) (p : process) (k : kernel)
    (c : syscall) (e : exn) :
  refuses plat k c = Some e ->
  invoke plat c (World p k) = (Raised e, World p (log_call k c (Err e) k)).
Proof. intros R. unfold invoke. cbn [w_kern]. rewrite R. reflexivity. Qed.

Lemma invoke_socket (plat : platform) (p : process) (k : kernel) :
  refuses plat k socket_call = None ->
  invoke plat socket_call (World p k)
  = (Returned (sock_of k), World p (after_socket k)).
Proof. intros R. unfold invoke. cbn [w_kern]. rewrite R. reflexivity. Qed.

Lemma sockets_after_socket (k : kernel) :
  k_sockets (after_socket k) !! sock_of k = Some (created k).
Proof. cbn [after_socket k_sockets]. apply lookup_insert_eq. Qed.

Lemma sockets_after_setsockopt (k : kernel) :
  k_sockets (after_setsockopt k) !! sock_of k = Some (configured k).
Proof. cbn [after_setsockopt k_sockets]. apply lookup_insert_eq. Qed.

Lemma invoke_setsockopt (plat : platform) (p : process) (k : kernel) :
  refuses plat (after_socket k) (setsockopt_call (sock_of k)) = None ->
  invoke plat (setsockopt_call (sock_of k)) (World p (after_socket k))
  = (Returned 0, World p (after_setsockopt k)).
Proof.
  intros R. unfold invoke. cbn [w_kern]. rewrite R.
  unfold setsockopt_call at 1. cbn [kernel_step].
  rewrite sockets_after_socket.
  cbn [apply_sockopt created new_socket so_family so_kind so_proto so_ttl
       Z.eqb Z.ltb Z.compare Pos.compare Pos.compare_cont orb w_proc].
  unfold log_call, after_setsockopt. cbn [k_sockets k_wire k_log after_socket].
  rewrite insert_insert_eq. reflexivity.
Qed.

Lemma invoke_sendto (plat : platform) (p : process) (k : kernel) :
  refuses plat (after_setsockopt k) (sendto_call (sock_of k)) = None ->
  invoke plat (sendto_call (sock_of k)) (World p (after_setsockopt k))
  = (Returned 5, World p (after_sendto k)).
Proof.
  intros R. unfold invoke. cbn [w_kern]. rewrite R.
  unfold sendto_call at 1. cbn [kernel_step].
  rewrite sockets_after_setsockopt.
  reflexivity.
Qed.

(** The module body always ends, in one of the four ways of [run_of]. *)
Lemma module_body_run_of (plat : platform) (w : world) :
  run_of plat w (module_body plat w).
Proof.
  destruct w as [p k].
  unfold module_body, bind, at_line, socket, setsockopt, sendto, setipaddr.
  rewrite inet_pton4_MCAST_GRP.
  unfold bind, ret, set_lineno. cbn [w_kern w_proc].
  change (sys_socket AF_INET SOCK_DGRAM IPPROTO_UDP) with socket_call.
  destruct (refuses plat k socket_call) as [e|] eqn:R1.
  { rewrite (invoke_refused plat _ _ _ e R1). now apply socket_fails. }
  rewrite (invoke_socket plat _ _ R1). cbn [w_kern w_proc].
  change (sys_setsockopt (sock_of k) IPPROTO_IP IP_MULTICAST_TTL MULTICAST_TTL)
    with (setsockopt_call (sock_of k)).
  destruct (refuses plat (after_socket k) (setsockopt_call (sock_of k)))
    as [e|] eqn:R2.
  { rewrite (invoke_refused plat _ _ _ e R2). now apply setsockopt_fails. }
  rewrite (invoke_setsockopt plat _ _ R2). cbn [w_kern w_proc].
  change ((MCAST_PORT <? 0) || (65535 <? MCAST_PORT)) with false. cbv iota.
  change (sys_sendto (sock_of k) robot group_address MCAST_PORT)
    with (sendto_call (sock_of k)).
  destruct (refuses plat (after_setsockopt k) (sendto_call (sock_of k)))
    as [e|] eqn:R3.
  { rewrite (invoke_refused plat _ _ _ e R3). now apply sendto_fails. }
  rewrite (invoke_sendto plat _ _ R3). now apply all_succeed.
Qed.

(** The four runs, with the final world of each in the goal. *)
Ltac run_cases plat w :=
  let H := fresh "Hrun" in
  pose proof (module_body_run_of plat w) as H;
  inversion H as [e R1 E|e R1 R2 E|e R1 R2 R3 E|R1 R2 R3 E]; clear H;
  unfold successful, calls, emits, run_script in *;
  rewrite <- E in *;
  unfold release_all, print_traceback, log_call, set_lineno in *;
  cbn [fst snd w_kern w_proc k_log k_wire k_sockets stderr stdout files
       environ argv lineno] in *.

Ltac history :=
  cbn [after_sendto after_setsockopt after_socket k_log k_wire k_sockets];
  rewrite <- ?app_assoc; cbn [app]; try reflexivity.

Lemma k_log_after_sendto (k : kernel) :
  k_log (after_sendto k) = k_log k ++ full_history k.
Proof.
  unfold after_sendto, after_setsockopt, after_socket, full_history.
  cbn [k_log k_sockets]. now rewrite <- !app_assoc.
Qed.

(** A successful run, in full. *)
Lemma successful_module_body (plat : platform) (w : world) :
  successful plat w ->
  module_body plat w
  = (Returned tt, World (w_proc (set_lineno 19 w)) (after_sendto (w_kern w))).
Proof.
  unfold successful. intros S.
  pose proof (module_body_run_of plat w) as H.
  inversion H as [e R1 E|e R1 R2 E|e R1 R2 R3 E|R1 R2 R3 E];
    rewrite <- E in S; cbn [fst] in S; try discriminate S.
  reflexivity.
Qed.

Lemma successful_run_script (plat : platform) (w : world) :
  successful plat w ->
  run_script plat w
  = (0, World (w_proc (set_lineno 19 w))
              (Kernel ∅ (k_wire (w_kern w) ++ [robot_datagram])
                      (k_log (w_kern w) ++ full_history (w_kern w))
                      (k_default_ttl (w_kern w)))).
Proof.
  intros S. unfold run_script. rewrite (successful_module_body plat w S).
  unfold release_all. cbn [w_kern w_proc].
  now rewrite k_log_after_sendto.
Qed.

(** The run is successful exactly when the platform refuses none of the
    three calls, each asked in the state the run has reached by then. *)
Lemma successful_iff (plat : platform) (w : world) :
  successful plat w <->
  refuses plat (w_kern w) socket_call = None /\
  refuses plat (after_socket (w_kern w))
          (setsockopt_call (sock_of (w_kern w))) = None /\
  refuses plat (after_setsockopt (w_kern w))
          (sendto_call (sock_of (w_kern w))) = None.
Proof.
  split.
  - intros S. run_cases plat w; try discriminate S. now repeat split.
  - intros (Q1 & Q2 & Q3). run_cases plat w; congruence.
Qed.

(** On a platform that refuses nothing the run is successful. *)
Lemma working_platform_successful (plat : platform) (w : world) :
  (forall k c, refuses plat k c = None) -> successful plat w.
Proof. intros W. apply successful_iff. now repeat split. Qed.

Example run_on_obliging :
  run_script obliging (fresh_process ["MCsend.py"])
  = (0, World (Process ["MCsend.py"] ∅ [] [] ∅ 19%nat)
              (Kernel ∅ [robot_datagram]
                      (full_history (w_kern (fresh_process []))) 64)).
Proof. vm_compute. reflexivity. Qed.

Example run_on_no_inet :
  fst (run_script no_inet (fresh_process [])) = 1 /\
  stderr (w_proc (snd (run_script no_inet (fresh_process []))))
  = [Traceback 14 (OSError 97 "Address family not supported by protocol")] /\
  k_wire (w_kern (snd (run_script no_inet (fresh_process [])))) = [].
Proof. now vm_compute. Qed.

Example run_on_no_multicast :
  fst (run_script no_multicast (fresh_process [])) = 1 /\
  stderr (w_proc (snd (run_script no_multicast (fresh_process []))))
  = [Traceback 15 ENOPROTOOPT] /\
  k_wire (w_kern (snd (run_script no_multicast (fresh_process [])))) = [].
Proof. now vm_compute. Qed.

Example run_on_no_route :
  fst (run_script no_route (fresh_process [])) = 1 /\
  stderr (w_proc (snd (run_script no_route (fresh_process []))))
  = [Traceback 19 (OSError 101 "Network is unreachable")] /\
  k_wire (w_kern (snd (run_script no_route (fresh_process [])))) = [].
Proof. now vm_compute. Qed.

(** C1: in every successful run the script opens an IPv4 datagram socket
    for UDP and puts exactly one packet on the network; that packet goes
    to 239.255.1.1, port 49788, and its payload is the five bytes
    72 6F 62 6F 74, the ASCII text robot, and nothing else. *)
Theorem robot_datagram_emitted (plat : platform) (w : world) :
  successful plat w ->
  exists (fd : Z) (evs : list event) (ev : event) (dg : datagram),
    calls plat w evs /\
    In ev evs /\
    ev_call ev = sys_socket AF_INET SOCK_DGRAM IPPROTO_UDP /\
    ev_ret ev = Ret fd /\
    emits plat w [dg] /\
    dg_family dg = AF_INET /\
    dg_proto dg = IPPROTO_UDP /\
    dg_dst dg = ipv4 239 255 1 1 /\
    dg_dport dg = 49788 /\
    dg_payload dg = [x72; x6f; x62; x6f; x74] /\
    dg_payload dg = list_byte_of_string "robot" /\
    length (dg_payload dg) = 5%nat.
Proof.
  intros S.
  exists (sock_of (w_kern w)), (full_history (w_kern w)),
    (Event (k_sockets (w_kern w)) socket_call (Ret (sock_of (w_kern w)))),
    robot_datagram.
  unfold calls, emits. rewrite (successful_run_script plat w S).
  cbn [snd w_kern k_log k_wire].
  repeat split; try reflexivity.
  unfold full_history. now left.
Qed.

Lemma robot_datagram_emitted_witness :
  exists (fd : Z) (evs : list event) (ev : event) (dg : datagram),
    calls obliging (fresh_process []) evs /\
    In ev evs /\
    ev_call ev = sys_socket AF_INET SOCK_DGRAM IPPROTO_UDP /\
    ev_ret ev = Ret fd /\
    emits obliging (fresh_process []) [dg] /\
    dg_family dg = AF_INET /\
    dg_proto dg = IPPROTO_UDP /\
    dg_dst dg = ipv4 239 255 1 1 /\
    dg_dport dg = 49788 /\
    dg_payload dg = [x72; x6f; x62; x6f; x74] /\
    dg_payload dg = list_byte_of_string "robot" /\
    length (dg_payload dg) = 5%nat.
Proof.
  apply (robot_datagram_emitted obliging (fresh_process [])).
  vm_compute. reflexivity.
Defined.


(** C3: when the creation of the socket, the setting of the option or the
    send fails, the process ends with status 1, so not with 0; standard
    error receives the traceback of the very error the platform gave,
    at the line of the call that failed; that call is the last call of
    the run, so nothing is retried, and no packet is emitted. *)
Theorem failure_is_fatal (plat : platform) (w : world) :
  ~ successful plat w ->
  exists (e : exn) (before : list event) (ev : event) (k0 : kernel),
    fst (run_script plat w) = 1 /\
    fst (run_script plat w) <> 0 /\
    stderr (w_proc (snd (run_script plat w)))
    = stderr (w_proc w) ++ [Traceback (statement_line (ev_call ev)) e] /\
    refuses plat k0 (ev_call ev) = Some e /\
    ev_ret ev = Err e /\
    calls plat w (before ++ [ev]) /\
    Forall (fun ev' => exists v, ev_ret ev' = Ret v) before /\
    emits plat w [].
Proof.
  intros F. run_cases plat w.
  - exists e, [], (Event (k_sockets (w_kern w)) socket_call (Err e)), (w_kern w).
    repeat split; try easy. now rewrite app_nil_r.
  - exists e, [Event (k_sockets (w_kern w)) socket_call
                     (Ret (sock_of (w_kern w)))],
      (Event (k_sockets (after_socket (w_kern w)))
             (setsockopt_call (sock_of (w_kern w))) (Err e)),
      (after_socket (w_kern w)).
    repeat split; try easy.
    + history.
    + repeat constructor. now eexists.
    + history. now rewrite app_nil_r.
  - exists e, [Event (k_sockets (w_kern w)) socket_call
                     (Ret (sock_of (w_kern w)));
               Event (k_sockets (after_socket (w_kern w)))
                     (setsockopt_call (sock_of (w_kern w))) (Ret 0)],
      (Event (k_sockets (after_setsockopt (w_kern w)))
             (sendto_call (sock_of (w_kern w))) (Err e)),
      (after_setsockopt (w_kern w)).
    repeat split; try easy.
    + history.
    + repeat constructor; now eexists.
    + history. now rewrite app_nil_r.
  - now contradiction F.
Qed.

Lemma failure_is_fatal_witness :
  exists (e : exn) (before : list event) (ev : event) (k0 : kernel),
    fst (run_script no_route (fresh_process [])) = 1 /\
    fst (run_script no_route (fresh_process [])) <> 0 /\
    stderr (w_proc (snd (run_script no_route (fresh_process []))))
    = stderr (w_proc (fresh_process []))
      ++ [Traceback (statement_line (ev_call ev)) e] /\
    refuses no_route k0 (ev_call ev) = Some e /\
    ev_ret ev = Err e /\
    calls no_route (fresh_process []) (before ++ [ev]) /\
    Forall (fun ev' => exists v, ev_ret ev' = Ret v) before /\
    emits no_route (fresh_process []) [].
Proof.
  apply (failure_is_fatal no_route (fresh_process [])).
  vm_compute. discriminate.
Defined.

(** C4: on a platform that refuses to set the multicast TTL, the process
    ends with status 1, [sendto] is never called, and the network
    receives no packet. *)
Theorem no_send_without_multicast_ttl (plat : platform) (w : world) :
  (forall (k : kernel) (fd v : Z),
     refuses plat k (sys_setsockopt fd IPPROTO_IP IP_MULTICAST_TTL v) <> None) ->
  exists evs : list event,
    fst (run_script plat w) = 1 /\
    fst (run_script plat w) <> 0 /\
    calls plat w evs /\
    Forall (fun ev => is_sendto (ev_call ev) = false) evs /\
    emits plat w [] /\
    k_wire (w_kern (snd (run_script plat w))) = k_wire (w_kern w).
Proof.
  intros U. run_cases plat w.
  - eexists. split; [reflexivity|]. split; [easy|]. split; [history|].
    split; [now repeat constructor|]. split; [now rewrite app_nil_r|easy].
  - eexists. split; [reflexivity|]. split; [easy|]. split; [history|].
    split; [now repeat constructor|].
    split; [history; now rewrite app_nil_r|easy].
  - now apply U in R2.
  - now apply U in R2.
Qed.

Lemma no_send_without_multicast_ttl_witness :
  exists evs : list event,
    fst (run_script no_multicast (fresh_process [])) = 1 /\
    fst (run_script no_multicast (fresh_process [])) <> 0 /\
    calls no_multicast (fresh_process []) evs /\
    Forall (fun ev => is_sendto (ev_call ev) = false) evs /\
    emits no_multicast (fresh_process []) [] /\
    k_wire (w_kern (snd (run_script no_multicast (fresh_process []))))
    = k_wire (w_kern (fresh_process [])).
Proof.
  apply (no_send_without_multicast_ttl no_multicast (fresh_process [])).
  intros k fd v. simpl. discriminate.
Defined.

(** C5: a successful run emits exactly one packet: among the calls of
    the run there is exactly one [sendto], and the network receives
    one packet, not more. *)
Theorem exactly_one_packet (plat : platform) (w : world) :
  successful plat w ->
  exists (evs : list event) (dg : datagram),
    calls plat w evs /\
    length (List.filter (fun ev => is_sendto (ev_call ev)) evs) = 1%nat /\
    emits plat w [dg] /\
    length (k_wire (w_kern (snd (run_script plat w))))
    = S (length (k_wire (w_kern w))).
Proof.
  intros S. exists (full_history (w_kern w)), robot_datagram.
  unfold calls, emits. rewrite (successful_run_script plat w S).
  cbn [snd w_kern k_log k_wire].
  repeat split. rewrite length_app. cbn [length]. lia.
Qed.

Lemma exactly_one_packet_witness :
  exists (evs : list event) (dg : datagram),
    calls obliging (fresh_process []) evs /\
    length (List.filter (fun ev => is_sendto (ev_call ev)) evs) = 1%nat /\
    emits obliging (fresh_process []) [dg] /\
    length (k_wire (w_kern (snd (run_script obliging (fresh_process [])))))
    = S (length (k_wire (w_kern (fresh_process [])))).
Proof.
  apply (exactly_one_packet obliging (fresh_process [])).
  vm_compute. reflexivity.
Defined.

(** C6: two successful runs, on whatever platforms and from whatever
    states, emit packets with the same destination address, the same
    destination port and the same payload: nothing in the packet depends
    on the run. *)
Theorem same_packet_every_run (plat1 plat2 : platform) (w1 w2 : world) :
  successful plat1 w1 ->
  successful plat2 w2 ->
  exists dg1 dg2 : datagram,
    emits plat1 w1 [dg1] /\
    emits plat2 w2 [dg2] /\
    dg_dst dg1 = dg_dst dg2 /\
    dg_dport dg1 = dg_dport dg2 /\
    dg_payload dg1 = dg_payload dg2 /\
    dg1 = dg2.
Proof.
  intros S1 S2. exists robot_datagram, robot_datagram.
  unfold emits.
  rewrite (successful_run_script plat1 w1 S1),
    (successful_run_script plat2 w2 S2).
  now repeat split.
Qed.

Lemma same_packet_every_run_witness :
  exists dg1 dg2 : datagram,
    emits obliging (fresh_process []) [dg1] /\
    emits obliging busy_process [dg2] /\
    dg_dst dg1 = dg_dst dg2 /\
    dg_dport dg1 = dg_dport dg2 /\
    dg_payload dg1 = dg_payload dg2 /\
    dg1 = dg2.
Proof.
  apply (same_packet_every_run obliging obliging (fresh_process [])
           busy_process).
  - vm_compute. reflexivity.
  - vm_compute. reflexivity.
Defined.

(** *** The whole invocation, by way of lines 14 to 19 *)



Lemma sock_of_free (k : kernel) : k_sockets k !! sock_of k = None.
Proof. apply not_elem_of_dom. unfold sock_of. apply is_fresh. Qed.


(** Once line 3 has bound the module, the invocation is the run of lines
    14 to 19 and, if warnings are shown, the warning after it. *)
Lemma python3_imported (interp : interpreter) (plat : platform) (w : world) :
  imported interp w ->
  python3 interp plat w
  = (fst (run_script plat (after_import interp w)),
     if resource_warnings interp (w_proc w)
     then warn_unclosed
            (unclosed (after_import interp w)
                      (snd (module_body plat (after_import interp w))))
            (snd (run_script plat (after_import interp w)))
     else snd (run_script plat (after_import interp w))).
Proof.
  unfold imported, python3, run_script. intros ->.
  destruct (module_body plat (after_import interp w)) as [[[]|e] w'];
    destruct (resource_warnings interp (w_proc w)); reflexivity.
Qed.





(** With the development mode asked for, the successful invocation ends
    with a warning about the socket on standard error, and with status 0
    all the same. *)
Example python3_on_dev_process :
  fst (python3 dev_interpreter obliging dev_process) = 0 /\
  stderr (w_proc (snd (python3 dev_interpreter obliging dev_process)))
  = [ResourceWarning (sock_of (w_kern dev_process))] /\
  k_wire (w_kern (snd (python3 dev_interpreter obliging dev_process)))
  = [robot_datagram].
Proof. now vm_compute. Qed.

(** Without it, nothing is written. *)
Example python3_on_fresh_process :
  python3 plain_interpreter obliging (fresh_process [])
  = run_script obliging (fresh_process []).
Proof. now vm_compute. Qed.

(** A failing import ends the invocation at line 3, before any call. *)
Example python3_on_lost_interpreter :
  python3 lost_interpreter obliging
          (set_environ {["PYTHONHOME" := "/nowhere"]} (fresh_process []))
  = (1, World (Process [] {["PYTHONHOME" := "/nowhere"]} []
                       [Traceback 3 (ImportError "No module named 'socket'")]
                       ∅ 3%nat)
              (Kernel ∅ [] [] 64)).
Proof. now vm_compute. Qed.

(** C8: a successful run ends with exit status 0: the module body runs
    to its last statement and the interpreter reports the default
    status, without a word on standard output or standard error. *)
Theorem success_exits_zero (plat : platform) (w : world) :
  successful plat w ->
  fst (run_script plat w) = 0 /\
  stdout (w_proc (snd (run_script plat w))) = stdout (w_proc w) /\
  stderr (w_proc (snd (run_script plat w))) = stderr (w_proc w).
Proof.
  intros S. rewrite (successful_run_script plat w S). now repeat split.
Qed.

Lemma success_exits_zero_witness :
  fst (run_script obliging busy_process) = 0 /\
  stdout (w_proc (snd (run_script obliging busy_process)))
  = stdout (w_proc busy_process) /\
  stderr (w_proc (snd (run_script obliging busy_process)))
  = stderr (w_proc busy_process).
Proof.
  apply (success_exits_zero obliging busy_process).
  vm_compute. reflexivity.
Defined.

(** The arguments pass through the module body untouched and unread. *)
Lemma module_body_set_argv (plat : platform) (a : list string) (w : world) :
  module_body plat (set_argv a w)
  = (fst (module_body plat w), set_argv a (snd (module_body plat w))).
Proof.
  pose proof (module_body_run_of plat w) as H1.
  pose proof (module_body_run_of plat (set_argv a w)) as H2.
  inversion H1 as [e R1 E|e R1 R2 E|e R1 R2 R3 E|R1 R2 R3 E];
    inversion H2 as [e' Q1 E'|e' Q1 Q2 E'|e' Q1 Q2 Q3 E'|Q1 Q2 Q3 E'];
    cbn [set_argv w_kern] in *; try congruence.
  - replace e' with e by congruence. reflexivity.
  - replace e' with e by congruence. reflexivity.
  - replace e' with e by congruence. reflexivity.
  - reflexivity.
Qed.

Lemma run_script_set_argv (plat : platform) (a : list string) (w : world) :
  run_script plat (set_argv a w)
  = (fst (run_script plat w), set_argv a (snd (run_script plat w))).
Proof.
  unfold run_script. rewrite module_body_set_argv.
  destruct (module_body plat w) as [[[]|e] w']; reflexivity.
Qed.

(** C9: the run does not depend on the command line: with any two
    argument vectors the exit status, everything on the kernel side
    (the calls made and the packets emitted among it) and standard error
    are the same, and the arguments themselves are still there at the
    end, untouched. *)
Theorem arguments_are_ignored (plat : platform) (w : world)
    (a1 a2 : list string) :
  let r1 := run_script plat (set_argv a1 w) in
  let r2 := run_script plat (set_argv a2 w) in
  fst r1 = fst r2 /\
  w_kern (snd r1) = w_kern (snd r2) /\
  (forall dgs, emits plat (set_argv a1 w) dgs <-> emits plat (set_argv a2 w) dgs) /\
  stderr (w_proc (snd r1)) = stderr (w_proc (snd r2)) /\
  stdout (w_proc (snd r1)) = stdout (w_proc (snd r2)) /\
  argv (w_proc (snd r1)) = a1 /\
  argv (w_proc (snd r2)) = a2.
Proof.
  unfold emits. rewrite !run_script_set_argv. cbn [fst snd].
  now repeat split.
Qed.

(** C10: the run starts with the creation of the socket, and the calls
    that follow are the [setsockopt] and then the [sendto] on that
    socket, as far as the run gets and both of them when it succeeds:
    there is no bind, no receive, no membership and no close among them.
    At the end of the module body the socket is still open; the end of
    the process releases it. *)
Theorem socket_only_configured_and_sent (plat : platform) (w : world) :
  exists (ev0 : event) (ops : list event),
    calls plat w (ev0 :: ops) /\
    ev_call ev0 = sys_socket AF_INET SOCK_DGRAM IPPROTO_UDP /\
    (forall e : exn, ev_ret ev0 = Err e -> ops = []) /\
    forall fd : Z,
      ev_ret ev0 = Ret fd ->
      map ev_call ops
        `prefix_of` [sys_setsockopt fd IPPROTO_IP IP_MULTICAST_TTL 2;
                     sys_sendto fd [x72; x6f; x62; x6f; x74]
                                (ipv4 239 255 1 1) 49788] /\
      (successful plat w ->
       map ev_call ops
       = [sys_setsockopt fd IPPROTO_IP IP_MULTICAST_TTL 2;
          sys_sendto fd [x72; x6f; x62; x6f; x74] (ipv4 239 255 1 1) 49788]) /\
      is_Some (k_sockets (w_kern (snd (module_body plat w))) !! fd) /\
      k_sockets (w_kern (snd (run_script plat w))) !! fd = None.
Proof.
  run_cases plat w.
  - eexists _, []. split; [history|]. split; [reflexivity|].
    split; [reflexivity|]. intros fd [=].
  - eexists _, [_]. split; [history|]. split; [reflexivity|].
    split; [intros e' [=]|]. intros fd [= <-]. cbn [map ev_call].
    split; [now eexists|]. split; [intros [=]|].
    split; [|apply lookup_empty].
    rewrite sockets_after_socket. now eexists.
  - eexists _, [_; _]. split; [history|]. split; [reflexivity|].
    split; [intros e' [=]|]. intros fd [= <-]. cbn [map ev_call].
    split; [now exists []|]. split; [reflexivity|].
    split; [|apply lookup_empty].
    rewrite sockets_after_setsockopt. now eexists.
  - eexists _, [_; _]. split; [history|]. split; [reflexivity|].
    split; [intros e' [=]|]. intros fd [= <-]. cbn [map ev_call].
    split; [now exists []|]. split; [reflexivity|].
    split; [|apply lookup_empty].
    cbn [after_sendto k_sockets].
    rewrite sockets_after_setsockopt. now eexists.
Qed.

(** ** Beyond one successful run *)

Lemma app_one_neq {A} (l : list A) (x : A) : l <> l ++ [x].
Proof.
  intros E. apply (f_equal (@length A)) in E.
  rewrite length_app in E. cbn [length] in E. lia.
Qed.

(** X1: the exit status tells what happened on the network. It is 0 or
    1 in every run; it is 0 exactly when the run is successful, which is
    exactly when the one packet for 239.255.1.1:49788 was emitted, and it
    is 1 exactly when the run emitted nothing. *)
Theorem exit_status_tells_emission (plat : platform) (w : world) :
  (fst (run_script plat w) = 0 \/ fst (run_script plat w) = 1) /\
  (fst (run_script plat w) = 0 <-> successful plat w) /\
  (fst (run_script plat w) = 0 <->
   emits plat w [Datagram AF_INET IPPROTO_UDP (ipv4 239 255 1 1) 49788 2
                          [x72; x6f; x62; x6f; x74]]) /\
  (fst (run_script plat w) = 1 <-> emits plat w []).
Proof.
  run_cases plat w.
  - split; [now right|]. split; [easy|]. rewrite app_nil_r.
    split; [|easy]. split; [easy|]. intros T. now apply app_one_neq in T.
  - split; [now right|]. split; [easy|]. cbn [after_socket k_wire].
    rewrite app_nil_r.
    split; [|easy]. split; [easy|]. intros T. now apply app_one_neq in T.
  - split; [now right|]. split; [easy|]. cbn [after_setsockopt k_wire].
    rewrite app_nil_r.
    split; [|easy]. split; [easy|]. intros T. now apply app_one_neq in T.
  - split; [now left|]. split; [easy|]. cbn [after_sendto k_wire].
    split; [easy|]. split; [easy|]. rewrite app_nil_r.
    intros T. symmetry in T. now apply app_one_neq in T.
Qed.

(** The resolver has no part in the module body. *)
Lemma module_body_resolver (refuse : kernel -> syscall -> option exn)
    (g1 g2 : string -> Z + exn) (w : world) :
  module_body (Platform refuse g1) w = module_body (Platform refuse g2) w.
Proof.
  pose proof (module_body_run_of (Platform refuse g1) w) as H1.
  pose proof (module_body_run_of (Platform refuse g2) w) as H2.
  inversion H1 as [e R1 E|e R1 R2 E|e R1 R2 R3 E|R1 R2 R3 E];
    inversion H2 as [e' Q1 E'|e' Q1 Q2 E'|e' Q1 Q2 Q3 E'|Q1 Q2 Q3 E'];
    cbn [refuses] in *; try congruence.
Qed.

(** X2: the run never resolves a name: the group is given as an address
    literal, so two platforms that differ in their resolver only give the
    same exit status and the same final world. *)
Theorem resolver_is_never_consulted
    (refuse : kernel -> syscall -> option exn) (g1 g2 : string -> Z + exn)
    (w : world) :
  run_script (Platform refuse g1) w = run_script (Platform refuse g2) w.
Proof.
  unfold run_script. now rewrite (module_body_resolver refuse g1 g2 w).
Qed.

(** X6: on a platform that refuses nothing the script cannot fail: the
    address literal, the port and the hop limit are all accepted, the
    exit status is 0 and the packet is on the network. *)
Theorem working_platform_delivers (plat : platform) (w : world) :
  (forall (k : kernel) (c : syscall), refuses plat k c = None) ->
  fst (run_script plat w) = 0 /\
  emits plat w [Datagram AF_INET IPPROTO_UDP (ipv4 239 255 1 1) 49788 2
                         [x72; x6f; x62; x6f; x74]] /\
  exists evs : list event,
    calls plat w evs /\
    length evs = 3%nat /\
    Forall (fun ev => exists v, ev_ret ev = Ret v) evs.
Proof.
  intros W. pose proof (working_platform_successful plat w W) as S.
  unfold emits, calls. rewrite (successful_run_script plat w S).
  cbn [fst snd w_kern k_wire k_log].
  split; [reflexivity|]. split; [reflexivity|].
  exists (full_history (w_kern w)). split; [reflexivity|].
  split; [reflexivity|]. repeat constructor; now eexists.
Qed.

Lemma working_platform_delivers_witness :
  fst (run_script obliging busy_process) = 0 /\
  emits obliging busy_process
        [Datagram AF_INET IPPROTO_UDP (ipv4 239 255 1 1) 49788 2
                  [x72; x6f; x62; x6f; x74]] /\
  exists evs : list event,
    calls obliging busy_process evs /\
    length evs = 3%nat /\
    Forall (fun ev => exists v, ev_ret ev = Ret v) evs.
Proof.
  apply (working_platform_delivers obliging busy_process).
  intros k c. reflexivity.
Defined.





(** X4: the module body leaves the sockets the process already has as
    they are. At its end the socket table is the one it started with, or
    that table with one more descriptor, which was free before and names
    an IPv4 UDP datagram socket; the script does not touch the unicast
    hop limit of that socket, which is still the host's default, and its
    multicast hop limit is the default 1 or the 2 that was set. *)
Theorem other_sockets_untouched (plat : platform) (w : world) :
  let socks := k_sockets (w_kern w) in
  let socks' := k_sockets (w_kern (snd (module_body plat w))) in
  (socks' = socks \/
   exists (fd : Z) (s : socket_state),
     socks !! fd = None /\
     socks' = <[fd := s]> socks /\
     so_family s = AF_INET /\
     so_kind s = SOCK_DGRAM /\
     so_proto s = IPPROTO_UDP /\
     so_ttl s = k_default_ttl (w_kern w) /\
     (so_mcast_ttl s = 1 \/ so_mcast_ttl s = 2)) /\
  forall (fd0 : Z) (s0 : socket_state),
    socks !! fd0 = Some s0 -> socks' !! fd0 = Some s0.
Proof.
  pose proof (sock_of_free (w_kern w)) as F.
  assert (forall (s : socket_state) (fd0 : Z) (s0 : socket_state),
             k_sockets (w_kern w) !! fd0 = Some s0 ->
             <[sock_of (w_kern w) := s]> (k_sockets (w_kern w)) !! fd0
             = Some s0) as Keep.
  { intros s fd0 s0 L. rewrite lookup_insert_ne; [exact L|].
    intros <-. rewrite F in L. discriminate L. }
  pose proof (module_body_run_of plat w) as H.
  inversion H as [e R1 E|e R1 R2 E|e R1 R2 R3 E|R1 R2 R3 E]; clear H;
    unfold log_call;
    cbn [snd w_kern k_sockets after_sendto after_setsockopt after_socket].
  - split; [now left|]. easy.
  - split; [|apply Keep]. right.
    exists (sock_of (w_kern w)), (created (w_kern w)).
    repeat split; try easy. now left.
  - split; [|apply Keep]. right.
    exists (sock_of (w_kern w)), (configured (w_kern w)).
    repeat split; try easy. now right.
  - split; [|apply Keep]. right.
    exists (sock_of (w_kern w)), (configured (w_kern w)).
    repeat split; try easy. now right.
Qed.


Lemma invocations_S (interp : interpreter) (plat : platform) (n : nat)
    (w : world) :
  invocations interp plat (S n) w
  = snd (python3 interp plat (invocations interp plat n w)).
Proof. reflexivity. Qed.

(** X7: invoked [n] times in a row by an interpreter whose import works,
    on a platform that refuses nothing, the script puts [n] equal packets
    on the network, one per invocation and in addition to what was there,
    and every one of the invocations ends with status 0. *)
Theorem repeated_invocations (interp : interpreter) (plat : platform)
    (n : nat) (w : world) :
  (forall p : process, fst (import_socket interp p) = Returned tt) ->
  (forall (k : kernel) (c : syscall), refuses plat k c = None) ->
  k_wire (w_kern (invocations interp plat n w))
  = k_wire (w_kern w)
    ++ repeat (Datagram AF_INET IPPROTO_UDP (ipv4 239 255 1 1) 49788 2
                        [x72; x6f; x62; x6f; x74]) n /\
  forall m : nat,
    (m < n)%nat -> fst (python3 interp plat (invocations interp plat m w)) = 0.
Proof.
  intros I W. induction n as [|n (IHwire & IHexit)].
  - cbn [invocations Nat.iter repeat]. rewrite app_nil_r.
    split; [reflexivity|]. intros m Hm. lia.
  - pose proof (working_platform_successful plat
                  (after_import interp (invocations interp plat n w)) W) as S.
    assert (python3 interp plat (invocations interp plat n w)
            = (0, snd (python3 interp plat (invocations interp plat n w)))
            /\ k_wire (w_kern (snd (python3 interp plat
                                      (invocations interp plat n w))))
               = k_wire (w_kern (invocations interp plat n w))
                 ++ [robot_datagram]) as [Ex Ew].
    { rewrite (python3_imported interp plat _ (I _)),
        (successful_run_script plat _ S).
      cbn [fst snd].
      now destruct (resource_warnings interp
                      (w_proc (invocations interp plat n w))). }
    split.
    + rewrite invocations_S, Ew, IHwire, <- app_assoc. f_equal.
      change (repeat ?x (Datatypes.S n)) with (x :: repeat x n).
      now rewrite repeat_cons.
    + intros m Hm. destruct (Nat.eq_dec m n) as [->|Hne].
      * now rewrite Ex.
      * apply IHexit. lia.
Qed.

Lemma repeated_invocations_witness :
  k_wire (w_kern (invocations dev_interpreter obliging 3 dev_process))
  = k_wire (w_kern dev_process)
    ++ repeat (Datagram AF_INET IPPROTO_UDP (ipv4 239 255 1 1) 49788 2
                        [x72; x6f; x62; x6f; x74]) 3 /\
  forall m : nat,
    (m < 3)%nat ->
    fst (python3 dev_interpreter obliging
                 (invocations dev_interpreter obliging m dev_process)) = 0.
Proof.
  apply (repeated_invocations dev_interpreter obliging 3 dev_process).
  - intros p. reflexivity.
  - intros k c. reflexivity.
Defined.
